(** * optitrack_vrpn: the tracker handler

    A shallow embedding of [src/optitrack_vrpn/tracker_handler.cpp]: the
    name sanitizer, the constructor, the tracking-update callback and the
    transform broadcast, followed by the properties the specification
    states about them.

    Conventions.
    - [double], [vrpn_float64], [tf2Scalar] and the [float64] message
      fields are IEEE binary64 numbers: Rocq's primitive [float].
    - [std::string] is a sequence of bytes: [string] over [ascii].
    - The middleware (publishers, the transform broadcaster) and the time
      manager are reached through a small state monad over a [World] that
      holds the time manager's state and the chronological trace of what
      the handler asked the outside to do.
    - [tf2::Quaternion] and [TimeManager] are not defined in this file of
      the repository; they are interfaces (type classes) here. *)

From Stdlib Require Import Bool List Arith Lia ZArith.
From Stdlib Require Import Strings.Ascii Strings.String.
From Stdlib Require Import Floats.PrimFloat.
Import ListNotations.

Set Implicit Arguments.

(* ================================================================== *)
(** ** Characters and strings *)

Module CType.

(** [isalnum] of <cctype> in the "C" locale, the locale a process runs
    in unless it calls [setlocale]: the decimal digits and the 52
    unaccented Latin letters. Bytes above 127 are not alphanumeric. *)
Definition in_range (lo hi c : ascii) : bool :=
  (Ascii.leb lo c && Ascii.leb c hi)%bool.

Definition isdigit (c : ascii) : bool := in_range "0" "9" c.
Definition isupper (c : ascii) : bool := in_range "A" "Z" c.
Definition islower (c : ascii) : bool := in_range "a" "z" c.
Definition isalpha (c : ascii) : bool := isupper c || islower c.
Definition isalnum (c : ascii) : bool := isalpha c || isdigit c.

End CType.

(** [stream << c] on a [std::stringstream]: the character goes to the end. *)
Definition stream_put (stream : string) (c : ascii) : string :=
  (stream ++ String c EmptyString)%string.

(** The body of the range-for loop of [TrackerHandler::sanitize_name] for
    one character [c]: the three-way [if]/[else if] chain. The assignment
    [first_character = false] that ends the body is the [false] passed on
    by [sanitize_loop]. *)
Definition sanitize_body (stream : string) (first_character : bool)
           (c : ascii) : string :=
  if (CType.isalnum c || (c =? "/")%char)%bool then
    stream_put stream c
  else if ((c =? "_")%char && negb first_character)%bool then
    stream_put stream c
  else if (c =? " ")%char then
    stream_put stream "_"
  else
    stream.

(** [for (char c : name) { ... first_character = false; }] *)
Fixpoint sanitize_loop (name : string) (stream : string)
         (first_character : bool) : string :=
  match name with
  | EmptyString => stream
  | String c rest =>
      sanitize_loop rest (sanitize_body stream first_character c) false
  end.

(** [std::string TrackerHandler::sanitize_name(const std::string& name)] *)
Definition sanitize_name (name : string) : string :=
  sanitize_loop name EmptyString true.

(** *** What the specification says about sanitization

    The wording of the specification, character by character: an
    alphanumeric character or ['/'] is kept; ['_'] is kept unless it is the
    first character; a space becomes ['_']; anything else is dropped.
    [index] is the position of the character in the input. *)
Definition spec_char (index : nat) (c : ascii) : option ascii :=
  if CType.isalnum c then Some c
  else if (c =? "/")%char then Some c
  else if (c =? "_")%char then (if Nat.eqb index 0 then None else Some c)
  else if (c =? " ")%char then Some "_"%char
  else None.

(** The kept characters, in input order, starting at position [index]. *)
Fixpoint spec_sanitize_from (index : nat) (name : string) : string :=
  match name with
  | EmptyString => EmptyString
  | String c rest =>
      match spec_char index c with
      | Some d => String d (spec_sanitize_from (S index) rest)
      | None => spec_sanitize_from (S index) rest
      end
  end.

Definition spec_sanitize (name : string) : string :=
  spec_sanitize_from 0 name.

(** A character of the topic-safe alphabet. *)
Definition topic_safe (c : ascii) : bool :=
  (CType.isalnum c || (c =? "/")%char || (c =? "_")%char)%bool.

Fixpoint string_forallb (p : ascii -> bool) (s : string) : bool :=
  match s with
  | EmptyString => true
  | String c rest => (p c && string_forallb p rest)%bool
  end.

(** The three bytes of U+200B (zero width space) in UTF-8. *)
Definition zero_width_space : string :=
  String (ascii_of_nat 226)
    (String (ascii_of_nat 128) (String (ascii_of_nat 139) EmptyString)).

(* ================================================================== *)
(** ** Messages and handles of the middleware *)

Module ros.

(** [ros::Time]: seconds and nanoseconds (both unsigned 32-bit). *)
Record Time := mkTime { sec : Z; nsec : Z }.

(** [ros::Publisher], as [NodeHandle::advertise(topic, queue_size)]
    returns it. *)
Record Publisher := mkPublisher { topic : string; queue_size : nat }.

End ros.

Module std_msgs.
Module Header.
Record t := mk { seq : Z; stamp : ros.Time; frame_id : string }.
End Header.
End std_msgs.

Module geometry_msgs.

Module Point.
Record t := mk { x : float; y : float; z : float }.
End Point.

Module Vector3.
Record t := mk { x : float; y : float; z : float }.
End Vector3.

Module Quaternion.
Record t := mk { x : float; y : float; z : float; w : float }.
End Quaternion.

Module Pose.
Record t := mk { position : Point.t; orientation : Quaternion.t }.
End Pose.

Module PoseStamped.
Record t := mk { header : std_msgs.Header.t; pose : Pose.t }.
End PoseStamped.

Module Transform.
Record t := mk { translation : Vector3.t; rotation : Quaternion.t }.
End Transform.

Module TransformStamped.
Record t := mk {
  header : std_msgs.Header.t;
  child_frame_id : string;
  transform : Transform.t
}.
End TransformStamped.

End geometry_msgs.

Import geometry_msgs.

(* ================================================================== *)
(** ** The tracking protocol's callback record *)

(** The enumerators that index [vrpn_TRACKERCB::pos] and
    [vrpn_TRACKERCB::quat] (declared in the handler's header). *)
Module VRPNIndex.
Inductive t := X | Y | Z | W.
End VRPNIndex.

(** [struct timeval] *)
Record timeval := mk_timeval { tv_sec : Z; tv_usec : Z }.

(** [vrpn_TRACKERCB]. The arrays [pos[3]] and [quat[4]] are read through
    the enumerators only, so they are maps from the enumerators;
    the handler never reads [pos] at [W]. *)
Record vrpn_TRACKERCB := mk_TRACKERCB {
  msg_time : timeval;
  sensor : Z;
  pos : VRPNIndex.t -> float;
  quat : VRPNIndex.t -> float
}.

(** [M_PI_2] of <cmath>: the binary64 number nearest to pi/2. *)
Definition M_PI_2 : float := 0x1.921fb54442d18p+0%float.

(* ================================================================== *)
(** ** Interfaces of the collaborators *)

Module tf2.

(** The part of [tf2::Quaternion] the handler uses. [setRPY roll pitch
    yaw] is the value a quaternion holds after [q.setRPY(roll, pitch,
    yaw)]; [mul] is [operator*]. *)
Class QuaternionOps := {
  Quaternion : Type;
  make : float -> float -> float -> float -> Quaternion;
  x : Quaternion -> float;
  y : Quaternion -> float;
  z : Quaternion -> float;
  w : Quaternion -> float;
  setRPY : float -> float -> float -> Quaternion;
  inverse : Quaternion -> Quaternion;
  mul : Quaternion -> Quaternion -> Quaternion
}.

End tf2.

(** [TimeManager::resolve_timestamp]: given the time manager's state and
    the time the tracker message carries, the stamp to publish and the
    time manager's next state. *)
Class TimeManagerOps := {
  TimeManager : Type;
  resolve_timestamp : TimeManager -> timeval -> ros.Time * TimeManager
}.

(** [TrackerHandlerOptions]: the fields this file reads. *)
Record TrackerHandlerOptions := mk_options {
  host : string;
  frame : string;
  ned_frame : string
}.

(** What the handler asks of the outside world, in the order it asks. *)
Inductive Event :=
| EvResolveTimestamp (msg_time : timeval) (stamp : ros.Time)
| EvPublish (publisher : ros.Publisher) (msg : PoseStamped.t)
| EvSendTransform (tf : TransformStamped.t).

(* ================================================================== *)
(** ** The handler *)

Section Handler.

Context {QO : tf2.QuaternionOps} {TM : TimeManagerOps}.

(** The world outside the handler: the shared time manager
    ([time_manager_] is a reference) and everything asked of the
    middleware so far, oldest first. *)
Record World := mkWorld {
  time_manager : TimeManager;
  trace : list Event
}.

(** State passing over the world. *)
Definition M (A : Type) : Type := World -> A * World.

Definition ret {A : Type} (a : A) : M A := fun w => (a, w).

Definition bind {A B : Type} (m : M A) (k : A -> M B) : M B :=
  fun w => let (a, w') := m w in k a w'.

Definition emit (e : Event) : M unit :=
  fun w => (tt, mkWorld (time_manager w) (trace w ++ [e])).

(** [time_manager_.resolve_timestamp(t)] *)
Definition call_resolve_timestamp (t : timeval) : M ros.Time :=
  fun w =>
    let (stamp, tm') := resolve_timestamp (time_manager w) t in
    (stamp, mkWorld tm' (trace w ++ [EvResolveTimestamp t stamp])).

(** [pub.publish(msg)] *)
Definition publish (pub : ros.Publisher) (msg : PoseStamped.t) : M unit :=
  emit (EvPublish pub msg).

(** [tf_broadcaster_.sendTransform(tf)] *)
Definition sendTransform (tf : TransformStamped.t) : M unit :=
  emit (EvSendTransform tf).

(** [nh_.advertise<geometry_msgs::PoseStamped>(topic, queue_size)] *)
Definition advertise (topic : string) (queue_size : nat) : ros.Publisher :=
  ros.mkPublisher topic queue_size.

(** The data members of [TrackerHandler] this file sets or reads.
    [tracker_] is kept as the device name it is opened with. *)
Record TrackerHandler := mkTrackerHandler {
  name_ : string;
  options_ : TrackerHandlerOptions;
  tf_child_frame_ : string;
  tf_child_frame_ned_ : string;
  tracker_ : string;
  nue_to_enu_ : tf2.Quaternion;
  nue_to_ned_ : tf2.Quaternion;
  enu_pub_ : ros.Publisher;
  ned_pub_ : ros.Publisher
}.

End Handler.

Arguments World {TM}.
Arguments M {TM} A.
Arguments TrackerHandler {QO}.

Declare Scope world_scope.
Delimit Scope world_scope with world.
Notation "x <- m ;; k" := (bind m (fun x => k))
  (at level 61, m at next level, right associativity) : world_scope.
Notation "m ;; k" := (bind m (fun _ => k))
  (at level 61, right associativity) : world_scope.

Section Methods.

Context {QO : tf2.QuaternionOps} {TM : TimeManagerOps}.

Local Open Scope world_scope.
Local Open Scope float_scope.

(** [TrackerHandler::TrackerHandler(name, options, connection,
    time_manager)]: the member initializers, then the body. The
    registration of [position_callback_wrapper] with the tracker, which
    ends the body, is what makes the protocol library call
    [position_callback] on each update; it sets no data member. *)
Definition new_TrackerHandler (name : string)
           (options : TrackerHandlerOptions) : TrackerHandler :=
  let topic_name := sanitize_name name in
  {| name_ := name;
     options_ := options;
     tf_child_frame_ := name;
     tf_child_frame_ned_ := (name ++ "_ned")%string;
     tracker_ := (name ++ "@" ++ host options)%string;
     nue_to_enu_ := tf2.setRPY 0.0 (- M_PI_2) (- M_PI_2);
     nue_to_ned_ := tf2.setRPY (- M_PI_2) 0.0 0.0;
     enu_pub_ := advertise (topic_name ++ "_enu")%string 1;
     ned_pub_ := advertise (topic_name ++ "_ned")%string 1 |}.

(** [void TrackerHandler::send_transform(const PoseStamped& pose,
    const std::string& child_frame)] *)
Definition send_transform (pose : PoseStamped.t) (child_frame : string)
  : M unit :=
  let tf :=
    {| TransformStamped.header :=
         {| std_msgs.Header.seq := 0;
            std_msgs.Header.stamp :=
              std_msgs.Header.stamp (PoseStamped.header pose);
            std_msgs.Header.frame_id :=
              std_msgs.Header.frame_id (PoseStamped.header pose) |};
       TransformStamped.child_frame_id := child_frame;
       TransformStamped.transform :=
         {| Transform.translation :=
              {| Vector3.x := Point.x (Pose.position (PoseStamped.pose pose));
                 Vector3.y := Point.y (Pose.position (PoseStamped.pose pose));
                 Vector3.z := Point.z (Pose.position (PoseStamped.pose pose)) |};
            Transform.rotation :=
              {| Quaternion.x :=
                   Quaternion.x (Pose.orientation (PoseStamped.pose pose));
                 Quaternion.y :=
                   Quaternion.y (Pose.orientation (PoseStamped.pose pose));
                 Quaternion.z :=
                   Quaternion.z (Pose.orientation (PoseStamped.pose pose));
                 Quaternion.w :=
                   Quaternion.w (Pose.orientation (PoseStamped.pose pose)) |}
         |} |} in
  sendTransform tf.

(** [void TrackerHandler::position_callback(const vrpn_TRACKERCB& info)] *)
Definition position_callback (this : TrackerHandler)
           (info : vrpn_TRACKERCB) : M unit :=
  stamp <- call_resolve_timestamp (msg_time info) ;;
  (* axis mappings for ENU *)
  let nue_to_body :=
    tf2.make (quat info VRPNIndex.X) (quat info VRPNIndex.Y)
             (quat info VRPNIndex.Z) (quat info VRPNIndex.W) in
  let quat_enu := tf2.mul (tf2.inverse (nue_to_enu_ this)) nue_to_body in
  let enu_msg :=
    {| PoseStamped.header :=
         {| std_msgs.Header.seq := 0;
            std_msgs.Header.stamp := stamp;
            std_msgs.Header.frame_id := frame (options_ this) |};
       PoseStamped.pose :=
         {| Pose.position :=
              {| Point.x := pos info VRPNIndex.Z;
                 Point.y := pos info VRPNIndex.X;
                 Point.z := pos info VRPNIndex.Y |};
            Pose.orientation :=
              {| Quaternion.x := tf2.x quat_enu;
                 Quaternion.y := tf2.y quat_enu;
                 Quaternion.z := tf2.z quat_enu;
                 Quaternion.w := tf2.w quat_enu |} |} |} in
  publish (enu_pub_ this) enu_msg ;;
  send_transform enu_msg (tf_child_frame_ this) ;;
  (* axis mappings for NED *)
  let quat_ned := tf2.mul (tf2.inverse (nue_to_ned_ this)) nue_to_body in
  let ned_msg :=
    {| PoseStamped.header :=
         {| std_msgs.Header.seq := 0;
            std_msgs.Header.stamp := stamp;
            std_msgs.Header.frame_id := ned_frame (options_ this) |};
       PoseStamped.pose :=
         {| Pose.position :=
              {| Point.x := pos info VRPNIndex.X;
                 Point.y := pos info VRPNIndex.Z;
                 Point.z := - pos info VRPNIndex.Y |};
            Pose.orientation :=
              {| Quaternion.x := tf2.x quat_ned;
                 Quaternion.y := tf2.y quat_ned;
                 Quaternion.z := tf2.z quat_ned;
                 Quaternion.w := tf2.w quat_ned |} |} |} in
  publish (ned_pub_ this) ned_msg ;;
  send_transform ned_msg (tf_child_frame_ned_ this).

(** [position_callback_wrapper(userData, info)]: the static trampoline
    registered with the tracker. *)
Definition position_callback_wrapper (userData : TrackerHandler)
           (info : vrpn_TRACKERCB) : M unit :=
  position_callback userData info.

End Methods.

(* ================================================================== *)
(** ** Observing a run *)

Section Observations.

Context {TM : TimeManagerOps}.

(** What a computation adds to the trace when it runs from [w]. *)
Definition emitted {A : Type} (m : M A) (w : World) : list Event :=
  skipn (List.length (trace w)) (trace (snd (m w))).

(** The pose publications among some events, oldest first. *)
Fixpoint publications (evs : list Event)
  : list (ros.Publisher * PoseStamped.t) :=
  match evs with
  | [] => []
  | EvPublish pub msg :: rest => (pub, msg) :: publications rest
  | _ :: rest => publications rest
  end.

(** The transform broadcasts among some events, oldest first. *)
Fixpoint broadcasts (evs : list Event) : list TransformStamped.t :=
  match evs with
  | [] => []
  | EvSendTransform tf :: rest => tf :: broadcasts rest
  | _ :: rest => broadcasts rest
  end.

(** The timestamp resolutions among some events, oldest first. *)
Fixpoint resolutions (evs : list Event) : list (timeval * ros.Time) :=
  match evs with
  | [] => []
  | EvResolveTimestamp t stamp :: rest => (t, stamp) :: resolutions rest
  | _ :: rest => resolutions rest
  end.

End Observations.

(** [tf] carries the values of [pose] unchanged. *)
Definition copied_from (pose : PoseStamped.t) (tf : TransformStamped.t)
  : Prop :=
  let p := Pose.position (PoseStamped.pose pose) in
  let o := Pose.orientation (PoseStamped.pose pose) in
  let t := Transform.translation (TransformStamped.transform tf) in
  let r := Transform.rotation (TransformStamped.transform tf) in
  Vector3.x t = Point.x p /\ Vector3.y t = Point.y p /\
  Vector3.z t = Point.z p /\
  Quaternion.x r = Quaternion.x o /\ Quaternion.y r = Quaternion.y o /\
  Quaternion.z r = Quaternion.z o /\ Quaternion.w r = Quaternion.w o /\
  std_msgs.Header.stamp (TransformStamped.header tf)
    = std_msgs.Header.stamp (PoseStamped.header pose) /\
  std_msgs.Header.frame_id (TransformStamped.header tf)
    = std_msgs.Header.frame_id (PoseStamped.header pose).

(** The orientation message read off a [tf2::Quaternion] through its
    accessors. *)
Definition orientation_of {QO : tf2.QuaternionOps} (q : tf2.Quaternion)
  : Quaternion.t :=
  {| Quaternion.x := tf2.x q; Quaternion.y := tf2.y q;
     Quaternion.z := tf2.z q; Quaternion.w := tf2.w q |}.

(** The seven numbers of a tracker update. *)
Definition same_numbers (a b : vrpn_TRACKERCB) : Prop :=
  pos a VRPNIndex.X = pos b VRPNIndex.X /\
  pos a VRPNIndex.Y = pos b VRPNIndex.Y /\
  pos a VRPNIndex.Z = pos b VRPNIndex.Z /\
  quat a VRPNIndex.X = quat b VRPNIndex.X /\
  quat a VRPNIndex.Y = quat b VRPNIndex.Y /\
  quat a VRPNIndex.Z = quat b VRPNIndex.Z /\
  quat a VRPNIndex.W = quat b VRPNIndex.W.

(** A tracker update given by its numbers. *)
Definition tracker_update (t : timeval) (s : Z)
           (px py pz qx qy qz qw : float) : vrpn_TRACKERCB :=
  {| msg_time := t;
     sensor := s;
     pos := fun i =>
       match i with
       | VRPNIndex.X => px | VRPNIndex.Y => py | VRPNIndex.Z => pz
       | VRPNIndex.W => 0%float
       end;
     quat := fun i =>
       match i with
       | VRPNIndex.X => qx | VRPNIndex.Y => qy | VRPNIndex.Z => qz
       | VRPNIndex.W => qw
       end |}.

(* ================================================================== *)
(** ** Instances to run the model on

    The theorems below hold for every implementation of the two
    interfaces. To evaluate the handler on concrete updates we fix one of
    each: quaternions as four binary64 components with the Hamilton
    product, conjugate inverse and the half-angle roll-pitch-yaw formula
    (cosine and sine by their power series, evaluated in binary64), and a
    time manager that adds a fixed offset in seconds and counts its
    calls. *)

Module Reference.

Local Open Scope float_scope.

Record Quat := mkQuat { qx : float; qy : float; qz : float; qw : float }.

(** [1 - x2/d1 * (1 - x2/d2 * (...))] *)
Fixpoint nested_series (x2 : float) (denominators : list float) : float :=
  match denominators with
  | [] => 1
  | d :: rest => 1 - x2 / d * nested_series x2 rest
  end.

Definition cos_series (a : float) : float :=
  nested_series (a * a) [2; 12; 30; 56; 90; 132; 182; 240; 306].

Definition sin_series (a : float) : float :=
  a * nested_series (a * a) [6; 20; 42; 72; 110; 156; 210; 272; 342].

Definition quat_setRPY (roll pitch yaw : float) : Quat :=
  let halfYaw := yaw * 0.5 in
  let halfPitch := pitch * 0.5 in
  let halfRoll := roll * 0.5 in
  let cosYaw := cos_series halfYaw in
  let sinYaw := sin_series halfYaw in
  let cosPitch := cos_series halfPitch in
  let sinPitch := sin_series halfPitch in
  let cosRoll := cos_series halfRoll in
  let sinRoll := sin_series halfRoll in
  mkQuat (sinRoll * cosPitch * cosYaw - cosRoll * sinPitch * sinYaw)
         (cosRoll * sinPitch * cosYaw + sinRoll * cosPitch * sinYaw)
         (cosRoll * cosPitch * sinYaw - sinRoll * sinPitch * cosYaw)
         (cosRoll * cosPitch * cosYaw + sinRoll * sinPitch * sinYaw).

Definition quat_inverse (q : Quat) : Quat :=
  mkQuat (- qx q) (- qy q) (- qz q) (qw q).

Definition quat_mul (a b : Quat) : Quat :=
  mkQuat (qw a * qx b + qx a * qw b + qy a * qz b - qz a * qy b)
         (qw a * qy b + qy a * qw b + qz a * qx b - qx a * qz b)
         (qw a * qz b + qz a * qw b + qx a * qy b - qy a * qx b)
         (qw a * qw b - qx a * qx b - qy a * qy b - qz a * qz b).

Definition quaternion_ops : tf2.QuaternionOps :=
  {| tf2.Quaternion := Quat;
     tf2.make := mkQuat;
     tf2.x := qx; tf2.y := qy; tf2.z := qz; tf2.w := qw;
     tf2.setRPY := quat_setRPY;
     tf2.inverse := quat_inverse;
     tf2.mul := quat_mul |}.

(** The state is (offset in seconds, number of calls so far). *)
Definition offset_time_manager : TimeManagerOps :=
  {| TimeManager := (Z * nat)%type;
     resolve_timestamp := fun tm t =>
       (ros.mkTime (tv_sec t + fst tm) (1000 * tv_usec t),
        (fst tm, S (snd tm))) |}.

Definition options : TrackerHandlerOptions :=
  {| host := "192.168.1.2"; frame := "optitrack";
     ned_frame := "optitrack_ned" |}.

Definition handler : @TrackerHandler quaternion_ops :=
  @new_TrackerHandler quaternion_ops "My Track/1" options.

Definition fresh_world : @World offset_time_manager :=
  @mkWorld offset_time_manager (0%Z, 0%nat) [].

(** An update at position (1, 2, 3) with the identity orientation. *)
Definition update_123 : vrpn_TRACKERCB :=
  tracker_update (mk_timeval 1700000000 250000) 0 1 2 3 0 0 0 1.

(** The same numbers in a later message from another sensor. *)
Definition update_123_later : vrpn_TRACKERCB :=
  tracker_update (mk_timeval 1700000042 125) 7 1 2 3 0 0 0 1.

(** A world with history: another clock offset, and the handler has
    already served an update with other numbers. *)
Definition busy_world : @World offset_time_manager :=
  snd (@position_callback quaternion_ops offset_time_manager handler
         (tracker_update (mk_timeval 1700000001 0) 0
                         0.5 (-4) 10 0.5 0.5 0.5 0.5)
         (@mkWorld offset_time_manager (37%Z, 5%nat) [])).

End Reference.

(* ================================================================== *)
(** ** Vocabulary for further properties *)

(** Whether a string begins with ['_']. *)
Definition begins_with_underscore (s : string) : bool :=
  match s with
  | EmptyString => false
  | String c _ => (c =? "_")%char
  end.

(** The string without its first character when that is ['_']. *)
Definition drop_leading_underscore (s : string) : string :=
  match s with
  | EmptyString => EmptyString
  | String c rest => if (c =? "_")%char then rest else s
  end.

(** The characters of a string that satisfy [p], in order. *)
Fixpoint string_filter (p : ascii -> bool) (s : string) : string :=
  match s with
  | EmptyString => EmptyString
  | String c rest =>
      if p c then String c (string_filter p rest) else string_filter p rest
  end.

(** The characters the first branch of the sanitizer's loop accepts. *)
Definition alnum_or_slash (c : ascii) : bool :=
  (CType.isalnum c || (c =? "/")%char)%bool.

Section Dispatch.

Context {QO : tf2.QuaternionOps} {TM : TimeManagerOps}.

(** The handler serving a sequence of tracker updates: the tracker calls
    the change handler registered by the constructor,
    [position_callback_wrapper], once per update, in arrival order. *)
Fixpoint serve_updates (this : TrackerHandler)
         (updates : list vrpn_TRACKERCB) : M unit :=
  match updates with
  | [] => ret tt
  | info :: rest =>
      bind (position_callback_wrapper this info)
           (fun _ => serve_updates this rest)
  end.

(** The time manager after it has resolved the given message times,
    one after the other. *)
Definition time_manager_after (tm : TimeManager) (times : list timeval)
  : TimeManager :=
  fold_left (fun tm t => snd (resolve_timestamp tm t)) times tm.

End Dispatch.

(* ================================================================== *)
(** * Properties of the name sanitizer *)

Section StringFacts.

Local Open Scope string_scope.

Lemma append_nil_r (s : string) : s ++ "" = s.
Proof. induction s as [|c s IH]; simpl; [reflexivity | now rewrite IH]. Qed.

Lemma append_assoc (a b c : string) : (a ++ b) ++ c = a ++ (b ++ c).
Proof. induction a as [|x a IH]; simpl; [reflexivity | now rewrite IH]. Qed.

Lemma length_append (a b : string) :
  String.length (a ++ b) = String.length a + String.length b.
Proof. induction a as [|x a IH]; simpl; [reflexivity | now rewrite IH]. Qed.

Lemma string_forallb_append (p : ascii -> bool) (a b : string) :
  string_forallb p (a ++ b)
  = (string_forallb p a && string_forallb p b)%bool.
Proof.
  induction a as [|x a IH]; simpl; [reflexivity|].
  now rewrite IH, andb_assoc.
Qed.

End StringFacts.

Section Sanitize.

Local Open Scope string_scope.

(** What one round of the loop appends does not depend on what the
    stream already holds. *)
Lemma sanitize_body_stream (stream : string) (first : bool) (c : ascii) :
  sanitize_body stream first c = stream ++ sanitize_body "" first c.
Proof.
  unfold sanitize_body, stream_put.
  destruct (CType.isalnum c || (c =? "/")%char)%bool; [reflexivity|].
  destruct ((c =? "_")%char && negb first)%bool; [reflexivity|].
  destruct (c =? " ")%char; [reflexivity|].
  now rewrite append_nil_r.
Qed.

Lemma sanitize_loop_stream (name stream : string) (first : bool) :
  sanitize_loop name stream first = stream ++ sanitize_loop name "" first.
Proof.
  revert stream first.
  induction name as [|c rest IH]; intros stream first; simpl.
  - now rewrite append_nil_r.
  - rewrite IH, (IH (sanitize_body "" first c)).
    now rewrite sanitize_body_stream, append_assoc.
Qed.

(** Sanitizing a concatenation: the second part is never at the start
    once the first part has a character. *)
Lemma sanitize_loop_append (a b stream : string) (first : bool) :
  sanitize_loop (a ++ b) stream first
  = sanitize_loop b (sanitize_loop a stream first)
      (match a with EmptyString => first | String _ _ => false end).
Proof.
  revert stream first.
  induction a as [|c a IH]; intros stream first; simpl; [reflexivity|].
  rewrite IH. now destruct a.
Qed.

(** One round of the loop against the wording of the specification. *)
Lemma sanitize_body_spec_char (index : nat) (c : ascii) :
  sanitize_body "" (Nat.eqb index 0) c
  = match spec_char index c with
    | Some d => String d ""
    | None => ""
    end.
Proof.
  unfold sanitize_body, spec_char, stream_put.
  destruct (CType.isalnum c); simpl; [reflexivity|].
  destruct (c =? "/")%char; simpl; [reflexivity|].
  destruct (c =? "_")%char eqn:Hu; simpl.
  - destruct (Nat.eqb index 0); simpl; [|reflexivity].
    apply Ascii.eqb_eq in Hu; subst c; reflexivity.
  - destruct (c =? " ")%char; reflexivity.
Qed.

Lemma sanitize_loop_spec (name : string) (index : nat) :
  sanitize_loop name "" (Nat.eqb index 0) = spec_sanitize_from index name.
Proof.
  revert index.
  induction name as [|c rest IH]; intro index; simpl; [reflexivity|].
  rewrite sanitize_loop_stream, sanitize_body_spec_char.
  change false with (Nat.eqb (S index) 0). rewrite IH.
  destruct (spec_char index c); reflexivity.
Qed.

(** One round appends at most one character, and a topic-safe one. *)
Lemma sanitize_body_safe (first : bool) (c : ascii) :
  string_forallb topic_safe (sanitize_body "" first c) = true
  /\ String.length (sanitize_body "" first c) <= 1.
Proof.
  unfold sanitize_body, stream_put, topic_safe.
  destruct (CType.isalnum c || (c =? "/")%char)%bool eqn:Hk; simpl.
  - rewrite Hk. simpl. split; [reflexivity | lia].
  - destruct ((c =? "_")%char && negb first)%bool eqn:Hu; simpl.
    + apply andb_prop in Hu. destruct Hu as [Hu _]. rewrite Hk, Hu.
      split; [reflexivity | lia].
    + destruct (c =? " ")%char; simpl; split; (reflexivity || lia).
Qed.

Lemma sanitize_loop_safe (name : string) (first : bool) :
  string_forallb topic_safe (sanitize_loop name "" first) = true
  /\ String.length (sanitize_loop name "" first) <= String.length name.
Proof.
  revert first.
  induction name as [|c rest IH]; intro first; simpl.
  - split; [reflexivity | lia].
  - rewrite sanitize_loop_stream, string_forallb_append, length_append.
    destruct (sanitize_body_safe first c) as [Hs Hl].
    destruct (IH false) as [IHs IHl].
    rewrite Hs, IHs. split; [reflexivity | lia].
Qed.

(** C4: for every input, [sanitize_name] returns (it is a total function)
    the characters the specification's rule keeps, in input order: an
    alphanumeric character or ['/'] unchanged, ['_'] unless it is the
    first character of the input, ['_'] for a space, nothing for any
    other character; and the three examples of the specification. *)
Theorem sanitize_name_spec :
  (forall name : string, sanitize_name name = spec_sanitize name)
  /\ sanitize_name "My Track/1" = "My_Track/1"
  /\ sanitize_name "_abc" = "abc"
  /\ sanitize_name "a_b" = "a_b".
Proof.
  split; [|repeat split].
  intro name. unfold sanitize_name, spec_sanitize.
  exact (sanitize_loop_spec name 0).
Qed.

(** C8: "first character" is position 0 of the input: a ['_'] that
    follows at least one input character is kept whatever happened to
    the characters before it, so the result may begin with ['_']; a
    leading space gives a leading underscore, and so does an underscore
    behind dropped characters. *)
Theorem sanitize_name_first_is_input_position :
  (forall (c : ascii) (before after : string),
      sanitize_name (String c before ++ String "_" after)
      = sanitize_name (String c before)
          ++ String "_" (sanitize_loop after "" false))
  /\ sanitize_name " a" = "_a"
  /\ sanitize_name ("." ++ zero_width_space ++ "_a") = "_a".
Proof.
  split; [|split; reflexivity].
  intros c before after. unfold sanitize_name.
  rewrite sanitize_loop_append.
  cbn [sanitize_loop].
  rewrite (sanitize_loop_stream after), sanitize_body_stream.
  change (sanitize_body "" false "_") with "_".
  now rewrite append_assoc.
Qed.

(** C10: every character [sanitize_name] returns is alphanumeric, ['/']
    or ['_'], and the result is no longer than the input. *)
Theorem sanitize_name_topic_safe (name : string) :
  string_forallb topic_safe (sanitize_name name) = true
  /\ String.length (sanitize_name name) <= String.length name.
Proof. exact (sanitize_loop_safe name true). Qed.

End Sanitize.

(* ================================================================== *)
(** * Properties of the callback *)

Section ListFacts.

Lemma skipn_length_app {A : Type} (l l' : list A) :
  skipn (List.length l) (l ++ l') = l'.
Proof. induction l as [|a l IH]; simpl; [reflexivity | exact IH]. Qed.

End ListFacts.

Section Callback.

Context {QO : tf2.QuaternionOps} {TM : TimeManagerOps}.

Local Open Scope float_scope.

(** Running [send_transform]: one broadcast, the world otherwise as it
    was. *)
Lemma send_transform_run (pose : PoseStamped.t) (child_frame : string)
      (w : World) :
  send_transform pose child_frame w
  = (tt,
     mkWorld (time_manager w)
       (trace w ++
        [EvSendTransform
           (TransformStamped.mk
              (std_msgs.Header.mk 0
                 (std_msgs.Header.stamp (PoseStamped.header pose))
                 (std_msgs.Header.frame_id (PoseStamped.header pose)))
              child_frame
              (Transform.mk
                 (Vector3.mk
                    (Point.x (Pose.position (PoseStamped.pose pose)))
                    (Point.y (Pose.position (PoseStamped.pose pose)))
                    (Point.z (Pose.position (PoseStamped.pose pose))))
                 (Pose.orientation (PoseStamped.pose pose))))])).
Proof.
  unfold send_transform, sendTransform, emit.
  destruct pose as [hd [p [ox oy oz ow]]]. reflexivity.
Qed.

(** Running the callback, symbolically: the time manager is asked once
    and five events are appended to the trace. *)
Lemma position_callback_run (this : TrackerHandler)
      (info : vrpn_TRACKERCB) (w : World) :
  let resolved := resolve_timestamp (time_manager w) (msg_time info) in
  let stamp := fst resolved in
  let nue_to_body :=
    tf2.make (quat info VRPNIndex.X) (quat info VRPNIndex.Y)
             (quat info VRPNIndex.Z) (quat info VRPNIndex.W) in
  let enu_pose :=
    Pose.mk
      (Point.mk (pos info VRPNIndex.Z) (pos info VRPNIndex.X)
                (pos info VRPNIndex.Y))
      (orientation_of
         (tf2.mul (tf2.inverse (nue_to_enu_ this)) nue_to_body)) in
  let ned_pose :=
    Pose.mk
      (Point.mk (pos info VRPNIndex.X) (pos info VRPNIndex.Z)
                (- pos info VRPNIndex.Y))
      (orientation_of
         (tf2.mul (tf2.inverse (nue_to_ned_ this)) nue_to_body)) in
  let enu_header := std_msgs.Header.mk 0 stamp (frame (options_ this)) in
  let ned_header :=
    std_msgs.Header.mk 0 stamp (ned_frame (options_ this)) in
  position_callback this info w
  = (tt,
     mkWorld (snd resolved)
       (trace w ++
        [EvResolveTimestamp (msg_time info) stamp;
         EvPublish (enu_pub_ this) (PoseStamped.mk enu_header enu_pose);
         EvSendTransform
           (TransformStamped.mk enu_header (tf_child_frame_ this)
              (Transform.mk
                 (Vector3.mk (pos info VRPNIndex.Z) (pos info VRPNIndex.X)
                             (pos info VRPNIndex.Y))
                 (Pose.orientation enu_pose)));
         EvPublish (ned_pub_ this) (PoseStamped.mk ned_header ned_pose);
         EvSendTransform
           (TransformStamped.mk ned_header (tf_child_frame_ned_ this)
              (Transform.mk
                 (Vector3.mk (pos info VRPNIndex.X) (pos info VRPNIndex.Z)
                             (- pos info VRPNIndex.Y))
                 (Pose.orientation ned_pose)))])).
Proof.
  cbv zeta.
  unfold position_callback, bind, call_resolve_timestamp, publish, emit.
  destruct (resolve_timestamp (time_manager w) (msg_time info))
    as [stamp tm'].
  rewrite !send_transform_run. cbn.
  rewrite <- !app_assoc. reflexivity.
Qed.

Lemma position_callback_emitted (this : TrackerHandler)
      (info : vrpn_TRACKERCB) (w : World) :
  trace (snd (position_callback this info w))
  = trace w ++ emitted (position_callback this info) w.
Proof.
  unfold emitted. rewrite position_callback_run. cbn.
  now rewrite skipn_length_app.
Qed.

End Callback.

Section CallbackClaims.

Context {QO : tf2.QuaternionOps} {TM : TimeManagerOps}.

Local Open Scope float_scope.

(** Replace the events a callback run emits by their list. *)
Ltac callback_events :=
  unfold emitted;
  rewrite position_callback_run;
  cbn [snd trace];
  rewrite skipn_length_app.

(** C1: for a handler as its constructor builds it and every tracker
    update, the orientation published on the ENU topic is
    [inverse(nue_to_enu) * q] and the one published on the NED topic is
    [inverse(nue_to_ned) * q], where [q] is the quaternion of the
    update's components (x, y, z, w), [nue_to_enu] is the quaternion of
    roll-pitch-yaw (0, -pi/2, -pi/2) and [nue_to_ned] that of
    (-pi/2, 0, 0). *)
Theorem published_orientations (name : string)
        (options : TrackerHandlerOptions) (info : vrpn_TRACKERCB)
        (w : World) :
  let this := new_TrackerHandler name options in
  let q :=
    tf2.make (quat info VRPNIndex.X) (quat info VRPNIndex.Y)
             (quat info VRPNIndex.Z) (quat info VRPNIndex.W) in
  let NUE_to_ENU := tf2.setRPY 0.0 (- M_PI_2) (- M_PI_2) in
  let NUE_to_NED := tf2.setRPY (- M_PI_2) 0.0 0.0 in
  map (fun pm => (fst pm, Pose.orientation (PoseStamped.pose (snd pm))))
      (publications (emitted (position_callback this info) w))
  = [(enu_pub_ this, orientation_of (tf2.mul (tf2.inverse NUE_to_ENU) q));
     (ned_pub_ this, orientation_of (tf2.mul (tf2.inverse NUE_to_NED) q))].
Proof. intros this q e n. callback_events. reflexivity. Qed.

(** C2: for every tracker update with source-frame position (x, y, z),
    the pose published on the ENU publisher has position (z, x, y); the
    update at (1, 2, 3) is published at (3, 1, 2). *)
Theorem enu_position :
  (forall (this : TrackerHandler) (info : vrpn_TRACKERCB) (w : World),
      exists enu ned : PoseStamped.t,
        publications (emitted (position_callback this info) w)
        = [(enu_pub_ this, enu); (ned_pub_ this, ned)]
        /\ Pose.position (PoseStamped.pose enu)
           = Point.mk (pos info VRPNIndex.Z) (pos info VRPNIndex.X)
                      (pos info VRPNIndex.Y))
  /\ (forall (this : TrackerHandler) (t : timeval) (s : Z)
             (qx qy qz qw : float) (w : World),
         exists enu ned : PoseStamped.t,
           publications
             (emitted
                (position_callback this
                   (tracker_update t s 1 2 3 qx qy qz qw)) w)
           = [(enu_pub_ this, enu); (ned_pub_ this, ned)]
           /\ Pose.position (PoseStamped.pose enu) = Point.mk 3 1 2).
Proof.
  split; intros; callback_events;
    (eexists; eexists; split; [reflexivity|]); reflexivity.
Qed.

(** C3: for every tracker update with source-frame position (x, y, z),
    the pose published on the NED publisher has position (x, z, -y); the
    update at (1, 2, 3) is published at (1, 3, -2). *)
Theorem ned_position :
  (forall (this : TrackerHandler) (info : vrpn_TRACKERCB) (w : World),
      exists enu ned : PoseStamped.t,
        publications (emitted (position_callback this info) w)
        = [(enu_pub_ this, enu); (ned_pub_ this, ned)]
        /\ Pose.position (PoseStamped.pose ned)
           = Point.mk (pos info VRPNIndex.X) (pos info VRPNIndex.Z)
                      (- pos info VRPNIndex.Y))
  /\ (forall (this : TrackerHandler) (t : timeval) (s : Z)
             (qx qy qz qw : float) (w : World),
         exists enu ned : PoseStamped.t,
           publications
             (emitted
                (position_callback this
                   (tracker_update t s 1 2 3 qx qy qz qw)) w)
           = [(enu_pub_ this, enu); (ned_pub_ this, ned)]
           /\ Pose.position (PoseStamped.pose ned) = Point.mk 1 3 (-2)).
Proof.
  split; intros; callback_events;
    (eexists; eexists; split; [reflexivity|]); reflexivity.
Qed.

(** C5: [send_transform] broadcasts one transform whose translation,
    rotation, stamp and parent frame id are those of the pose it is
    given; and each of the two poses the callback publishes is followed
    by the transform that carries its values unchanged. *)
Theorem transform_copies_pose :
  (forall (pose : PoseStamped.t) (child_frame : string) (w : World),
      exists tf : TransformStamped.t,
        emitted (send_transform pose child_frame) w = [EvSendTransform tf]
        /\ copied_from pose tf
        /\ TransformStamped.child_frame_id tf = child_frame)
  /\ (forall (this : TrackerHandler) (info : vrpn_TRACKERCB) (w : World),
         exists (stamp : ros.Time) (enu ned : PoseStamped.t)
                (tf_enu tf_ned : TransformStamped.t),
           emitted (position_callback this info) w
           = [EvResolveTimestamp (msg_time info) stamp;
              EvPublish (enu_pub_ this) enu; EvSendTransform tf_enu;
              EvPublish (ned_pub_ this) ned; EvSendTransform tf_ned]
           /\ copied_from enu tf_enu
           /\ copied_from ned tf_ned).
Proof.
  split.
  - intros pose child_frame w. unfold emitted.
    rewrite send_transform_run. cbn [snd trace].
    rewrite skipn_length_app.
    eexists. split; [reflexivity|].
    unfold copied_from. cbn. repeat split; reflexivity.
  - intros this info w. callback_events.
    do 5 eexists. split; [reflexivity|].
    unfold copied_from. cbn. repeat split; reflexivity.
Qed.

(** C7: every invocation of the callback, on every input, adds to what
    the middleware was asked before exactly: one pose on the ENU
    publisher, its transform, one pose on the NED publisher, its
    transform, in this order; two publications and two broadcasts. *)
Theorem two_poses_two_transforms (this : TrackerHandler)
        (info : vrpn_TRACKERCB) (w : World) :
  let evs := emitted (position_callback this info) w in
  trace (snd (position_callback this info w)) = trace w ++ evs
  /\ List.length (publications evs) = 2%nat
  /\ List.length (broadcasts evs) = 2%nat
  /\ exists (stamp : ros.Time) (enu ned : PoseStamped.t)
            (tf_enu tf_ned : TransformStamped.t),
      evs = [EvResolveTimestamp (msg_time info) stamp;
             EvPublish (enu_pub_ this) enu; EvSendTransform tf_enu;
             EvPublish (ned_pub_ this) ned; EvSendTransform tf_ned]
      /\ std_msgs.Header.frame_id (PoseStamped.header enu)
         = frame (options_ this)
      /\ std_msgs.Header.frame_id (PoseStamped.header ned)
         = ned_frame (options_ this)
      /\ TransformStamped.child_frame_id tf_enu = tf_child_frame_ this
      /\ TransformStamped.child_frame_id tf_ned
         = tf_child_frame_ned_ this.
Proof.
  intro evs. split; [apply position_callback_emitted|].
  subst evs. callback_events.
  split; [reflexivity|]. split; [reflexivity|].
  do 5 eexists. split; [reflexivity|]. cbn. repeat split; reflexivity.
Qed.

(** C9: one invocation of the callback asks the time manager for a stamp
    exactly once (for the update's message time, advancing the time
    manager by that one call), and the two poses and the two transforms
    all carry the stamp it answered. *)
Theorem one_timestamp_for_all (this : TrackerHandler)
        (info : vrpn_TRACKERCB) (w : World) :
  let resolved := resolve_timestamp (time_manager w) (msg_time info) in
  let evs := emitted (position_callback this info) w in
  resolutions evs = [(msg_time info, fst resolved)]
  /\ time_manager (snd (position_callback this info w)) = snd resolved
  /\ map (fun pm => std_msgs.Header.stamp (PoseStamped.header (snd pm)))
         (publications evs)
     = [fst resolved; fst resolved]
  /\ map (fun tf => std_msgs.Header.stamp (TransformStamped.header tf))
         (broadcasts evs)
     = [fst resolved; fst resolved].
Proof.
  intros resolved evs. subst evs resolved.
  split; [callback_events; reflexivity|].
  split; [rewrite position_callback_run; reflexivity|].
  split; callback_events; reflexivity.
Qed.

(** C6: two invocations of the callback whose seven numbers (three of
    position, four of orientation) agree publish ENU poses with equal
    position and orientation and NED poses with equal position and
    orientation, whatever the handlers' names and options, the message
    times, and the histories of the worlds they run in. *)
Theorem same_numbers_same_poses
        (name1 name2 : string) (options1 options2 : TrackerHandlerOptions)
        (info1 info2 : vrpn_TRACKERCB) (w1 w2 : World)
        (Hsame : same_numbers info1 info2) :
  let this1 := new_TrackerHandler name1 options1 in
  let this2 := new_TrackerHandler name2 options2 in
  exists enu1 ned1 enu2 ned2 : PoseStamped.t,
    publications (emitted (position_callback this1 info1) w1)
    = [(enu_pub_ this1, enu1); (ned_pub_ this1, ned1)]
    /\ publications (emitted (position_callback this2 info2) w2)
       = [(enu_pub_ this2, enu2); (ned_pub_ this2, ned2)]
    /\ PoseStamped.pose enu1 = PoseStamped.pose enu2
    /\ PoseStamped.pose ned1 = PoseStamped.pose ned2.
Proof.
  intros this1 this2.
  destruct Hsame as (Hx & Hy & Hz & Hqx & Hqy & Hqz & Hqw).
  do 2 callback_events.
  do 4 eexists. split; [reflexivity|]. split; [reflexivity|].
  cbn. rewrite Hx, Hy, Hz, Hqx, Hqy, Hqz, Hqw. split; reflexivity.
Qed.

End CallbackClaims.

(* ================================================================== *)
(** * The reference instance at work *)

Section ReferenceRuns.

Import Reference.

Local Open Scope float_scope.
Local Open Scope string_scope.

(** The update at (1, 2, 3) served by the reference handler: topics and
    positions of what is published. *)
Example reference_run_positions :
  map (fun pm => (ros.topic (fst pm),
                  Pose.position (PoseStamped.pose (snd pm))))
      (publications
         (emitted
            (@position_callback quaternion_ops offset_time_manager
               handler update_123) fresh_world))
  = [("My_Track/1_enu", Point.mk 3 1 2);
     ("My_Track/1_ned", Point.mk 1 3 (-2))].
Proof. vm_compute. reflexivity. Qed.

(** Two updates with the same seven numbers, from different sensors at
    different times, served in worlds with different histories and
    clock offsets, publish the same poses. *)
Lemma same_numbers_same_poses_witness :
  same_numbers update_123 update_123_later
  /\ exists enu1 ned1 enu2 ned2 : PoseStamped.t,
      publications
        (emitted
           (@position_callback quaternion_ops offset_time_manager
              handler update_123) fresh_world)
      = [(enu_pub_ handler, enu1); (ned_pub_ handler, ned1)]
      /\ publications
           (emitted
              (@position_callback quaternion_ops offset_time_manager
                 handler update_123_later) busy_world)
         = [(enu_pub_ handler, enu2); (ned_pub_ handler, ned2)]
      /\ PoseStamped.pose enu1 = PoseStamped.pose enu2
      /\ PoseStamped.pose ned1 = PoseStamped.pose ned2.
Proof.
  split.
  - unfold same_numbers. repeat split; reflexivity.
  - apply (@same_numbers_same_poses quaternion_ops offset_time_manager
             "My Track/1" "My Track/1" options options
             update_123 update_123_later fresh_world busy_world).
    unfold same_numbers. repeat split; reflexivity.
Defined.

End ReferenceRuns.

(* ================================================================== *)
(** * Further properties of the name sanitizer *)

Section SanitizeMore.

Local Open Scope string_scope.

Lemma string_filter_append (p : ascii -> bool) (a b : string) :
  string_filter p (a ++ b) = string_filter p a ++ string_filter p b.
Proof.
  induction a as [|x a IH]; simpl; [reflexivity|].
  destruct (p x); simpl; now rewrite IH.
Qed.

(** Only a leading ['_'] makes the start of the input special. *)
Lemma sanitize_loop_first (name : string) :
  begins_with_underscore name = false ->
  sanitize_loop name "" true = sanitize_loop name "" false.
Proof.
  destruct name as [|c rest]; simpl; [reflexivity|].
  intro Hc. unfold sanitize_body. rewrite Hc. reflexivity.
Qed.

(** Away from the start, a topic-safe string goes through unchanged. *)
Lemma sanitize_loop_safe_id (s : string) :
  string_forallb topic_safe s = true -> sanitize_loop s "" false = s.
Proof.
  induction s as [|c rest IH]; simpl; [reflexivity|].
  intro H. apply andb_prop in H. destruct H as [Hc Hrest].
  rewrite sanitize_loop_stream, (IH Hrest).
  unfold sanitize_body, stream_put. unfold topic_safe in Hc.
  destruct (CType.isalnum c || (c =? "/")%char)%bool; [reflexivity|].
  simpl in Hc. rewrite Hc. reflexivity.
Qed.

(** X1: sanitizing a concatenation whose second part does not begin with
    ['_'] is the concatenation of the sanitized parts. *)
Theorem sanitize_name_append (a b : string) :
  begins_with_underscore b = false ->
  sanitize_name (a ++ b) = sanitize_name a ++ sanitize_name b.
Proof.
  intro Hb. unfold sanitize_name.
  rewrite sanitize_loop_append, sanitize_loop_stream.
  destruct a as [|c a]; [reflexivity|].
  now rewrite (sanitize_loop_first b Hb).
Qed.

(** X2: a name made of topic-safe characters that does not begin with
    ['_'] is returned unchanged. *)
Theorem sanitize_name_fixed_point (name : string) :
  string_forallb topic_safe name = true ->
  begins_with_underscore name = false ->
  sanitize_name name = name.
Proof.
  intros Hsafe Hfirst. unfold sanitize_name.
  rewrite (sanitize_loop_first name Hfirst).
  exact (sanitize_loop_safe_id name Hsafe).
Qed.

(** X3: sanitizing a sanitized name removes its leading ['_'], if it has
    one, and changes nothing else; so [sanitize_name] is not idempotent
    exactly on the names whose result begins with ['_']. *)
Theorem sanitize_name_twice (name : string) :
  sanitize_name (sanitize_name name)
  = drop_leading_underscore (sanitize_name name).
Proof.
  destruct (sanitize_loop_safe name true) as [Hsafe _].
  fold (sanitize_name name) in Hsafe.
  destruct (sanitize_name name) as [|c rest] eqn:Hout; [reflexivity|].
  unfold drop_leading_underscore.
  destruct (c =? "_")%char eqn:Hc.
  - apply Ascii.eqb_eq in Hc. subst c.
    simpl in Hsafe. unfold sanitize_name. cbn [sanitize_loop].
    change (sanitize_body "" true "_") with "".
    exact (sanitize_loop_safe_id rest Hsafe).
  - unfold sanitize_name.
    rewrite (sanitize_loop_first (String c rest) Hc).
    exact (sanitize_loop_safe_id (String c rest) Hsafe).
Qed.

(** X4: behind the first character a space and an underscore are the
    same to the sanitizer: two names that differ only there get the same
    result. *)
Theorem sanitize_name_space_is_underscore (c : ascii)
        (before after : string) :
  sanitize_name (String c before ++ String " " after)
  = sanitize_name (String c before ++ String "_" after).
Proof.
  unfold sanitize_name. rewrite !sanitize_loop_append.
  cbn [sanitize_loop].
  rewrite (sanitize_body_stream _ false " ").
  rewrite (sanitize_body_stream _ false "_").
  reflexivity.
Qed.

Lemma sanitize_body_filter (first : bool) (c : ascii) :
  string_filter alnum_or_slash (sanitize_body "" first c)
  = if alnum_or_slash c then String c "" else "".
Proof.
  unfold sanitize_body, stream_put, alnum_or_slash.
  destruct (CType.isalnum c || (c =? "/")%char)%bool eqn:Hk; simpl.
  - unfold alnum_or_slash. now rewrite Hk.
  - destruct ((c =? "_")%char && negb first)%bool eqn:Hu; simpl.
    + unfold alnum_or_slash. now rewrite Hk.
    + destruct (c =? " ")%char; reflexivity.
Qed.

(** X5: no alphanumeric character and no ['/'] is lost, added or moved:
    the alphanumerics and slashes of the result are those of the input,
    in the same order. *)
Theorem sanitize_name_keeps_alnum_slash (name : string) :
  string_filter alnum_or_slash (sanitize_name name)
  = string_filter alnum_or_slash name.
Proof.
  unfold sanitize_name. generalize true.
  induction name as [|c rest IH]; intro first; simpl; [reflexivity|].
  rewrite sanitize_loop_stream, string_filter_append.
  rewrite sanitize_body_filter, IH.
  destruct (alnum_or_slash c); reflexivity.
Qed.


End SanitizeMore.

(* ================================================================== *)
(** * Further properties of the handler *)

Section EventFacts.

Lemma publications_app (a b : list Event) :
  publications (a ++ b) = publications a ++ publications b.
Proof.
  induction a as [|e a IH]; simpl; [reflexivity|].
  destruct e; simpl; now rewrite IH.
Qed.

Lemma broadcasts_app (a b : list Event) :
  broadcasts (a ++ b) = broadcasts a ++ broadcasts b.
Proof.
  induction a as [|e a IH]; simpl; [reflexivity|].
  destruct e; simpl; now rewrite IH.
Qed.

Lemma resolutions_app (a b : list Event) :
  resolutions (a ++ b) = resolutions a ++ resolutions b.
Proof.
  induction a as [|e a IH]; simpl; [reflexivity|].
  destruct e; simpl; now rewrite IH.
Qed.

End EventFacts.

Section HandlerMore.

Context {QO : tf2.QuaternionOps} {TM : TimeManagerOps}.

Local Open Scope float_scope.

(** Replace the events one callback run emits by their list. *)
Ltac one_run :=
  unfold emitted;
  rewrite position_callback_run;
  cbn [snd trace];
  rewrite skipn_length_app.


(** X7: the poses go out on topics named after the sanitized name, while
    the transforms name their child frames after the name as given,
    unsanitized: [name] for ENU and [name ++ "_ned"] for NED, under the
    parent frames of the options. *)
Theorem topics_sanitized_child_frames_raw (name : string)
        (options : TrackerHandlerOptions) (info : vrpn_TRACKERCB)
        (w : World) :
  let this := new_TrackerHandler name options in
  let evs := emitted (position_callback this info) w in
  map (fun pm => (ros.topic (fst pm),
                  std_msgs.Header.frame_id (PoseStamped.header (snd pm))))
      (publications evs)
  = [((sanitize_name name ++ "_enu")%string, frame options);
     ((sanitize_name name ++ "_ned")%string, ned_frame options)]
  /\ map (fun tf => (std_msgs.Header.frame_id (TransformStamped.header tf),
                     TransformStamped.child_frame_id tf))
         (broadcasts evs)
     = [(frame options, name);
        (ned_frame options, (name ++ "_ned")%string)].
Proof.
  intros this evs. subst evs. one_run. split; reflexivity.
Qed.

(** X8: the two positions published for one update are each other's
    axis swap: NED x is ENU y, NED y is ENU x and NED z is the negated
    ENU z. *)
Theorem ned_position_is_enu_swapped (this : TrackerHandler)
        (info : vrpn_TRACKERCB) (w : World) :
  exists enu ned : PoseStamped.t,
    publications (emitted (position_callback this info) w)
    = [(enu_pub_ this, enu); (ned_pub_ this, ned)]
    /\ Point.x (Pose.position (PoseStamped.pose ned))
       = Point.y (Pose.position (PoseStamped.pose enu))
    /\ Point.y (Pose.position (PoseStamped.pose ned))
       = Point.x (Pose.position (PoseStamped.pose enu))
    /\ Point.z (Pose.position (PoseStamped.pose ned))
       = - Point.z (Pose.position (PoseStamped.pose enu)).
Proof.
  one_run. do 2 eexists. split; [reflexivity|].
  cbn. repeat split; reflexivity.
Qed.

(** X9: what a callback run does is decided by the update's message time
    and its seven numbers: two updates that agree on these (and may
    differ in the sensor index, which the handler never reads) leave the
    same world behind, trace and time manager alike. *)
Theorem callback_ignores_sensor (this : TrackerHandler)
        (info1 info2 : vrpn_TRACKERCB) (w : World) :
  msg_time info1 = msg_time info2 ->
  same_numbers info1 info2 ->
  position_callback this info1 w = position_callback this info2 w.
Proof.
  intros Ht (Hx & Hy & Hz & Hqx & Hqy & Hqz & Hqw).
  rewrite !position_callback_run. cbv zeta.
  now rewrite Ht, Hx, Hy, Hz, Hqx, Hqy, Hqz, Hqw.
Qed.

(** Serving one more update first. *)
Lemma serve_updates_cons (this : TrackerHandler) (info : vrpn_TRACKERCB)
      (rest : list vrpn_TRACKERCB) (w : World) :
  serve_updates this (info :: rest) w
  = serve_updates this rest (snd (position_callback this info w)).
Proof.
  cbn [serve_updates]. unfold bind, position_callback_wrapper.
  destruct (position_callback this info w) as [u w1]. reflexivity.
Qed.

(** Serving updates only ever appends to the trace. *)
Lemma serve_updates_trace (this : TrackerHandler)
      (updates : list vrpn_TRACKERCB) (w : World) :
  trace (snd (serve_updates this updates w))
  = trace w ++ emitted (serve_updates this updates) w.
Proof.
  revert w. induction updates as [|info rest IH]; intro w.
  - unfold emitted. cbn. now rewrite skipn_all, app_nil_r.
  - pose proof (position_callback_emitted this info w) as H1.
    pose proof (IH (snd (position_callback this info w))) as H2.
    unfold emitted at 1. rewrite serve_updates_cons, H2, H1.
    rewrite <- app_assoc, skipn_length_app. reflexivity.
Qed.

(** The events of a sequence are those of its first update followed by
    those of the rest, served in the world the first update leaves. *)
Lemma serve_updates_emitted_cons (this : TrackerHandler)
      (info : vrpn_TRACKERCB) (rest : list vrpn_TRACKERCB) (w : World) :
  emitted (serve_updates this (info :: rest)) w
  = emitted (position_callback this info) w
    ++ emitted (serve_updates this rest)
         (snd (position_callback this info w)).
Proof.
  pose proof (position_callback_emitted this info w) as H1.
  pose proof (serve_updates_trace this rest
                (snd (position_callback this info w))) as H2.
  unfold emitted at 1. rewrite serve_updates_cons, H2, H1.
  rewrite <- app_assoc, skipn_length_app. reflexivity.
Qed.

(** X10: serving [n] updates appends exactly [5 * n] events to the trace
    and removes none: [2 * n] pose publications, [2 * n] transform
    broadcasts and [n] timestamp resolutions, asked for the updates'
    message times in arrival order; the time manager ends in the state
    those [n] calls lead to. *)
Theorem serve_updates_counts (this : TrackerHandler)
        (updates : list vrpn_TRACKERCB) (w : World) :
  let evs := emitted (serve_updates this updates) w in
  let n := List.length updates in
  trace (snd (serve_updates this updates w)) = trace w ++ evs
  /\ List.length evs = (5 * n)%nat
  /\ List.length (publications evs) = (2 * n)%nat
  /\ List.length (broadcasts evs) = (2 * n)%nat
  /\ map fst (resolutions evs) = map msg_time updates
  /\ time_manager (snd (serve_updates this updates w))
     = time_manager_after (time_manager w) (map msg_time updates).
Proof.
  cbv zeta. split; [apply serve_updates_trace|].
  revert w. induction updates as [|info rest IH]; intro w.
  - unfold emitted. cbn. rewrite skipn_all. cbn. repeat split.
  - destruct (IH (snd (position_callback this info w)))
      as (Hl & Hp & Hb & Hr & Ht).
    rewrite serve_updates_emitted_cons, serve_updates_cons.
    rewrite publications_app, broadcasts_app, resolutions_app.
    rewrite !length_app, map_app, Hl, Hp, Hb, Hr, Ht.
    one_run. cbn.
    repeat split; lia.
Qed.

(** X11: the topics and poses published for a sequence of updates do not
    depend on the world the sequence is served in: neither the earlier
    trace nor the state of the time manager reaches a published pose. *)
Theorem serve_updates_poses_history_free (this : TrackerHandler)
        (updates : list vrpn_TRACKERCB) (w w' : World) :
  map (fun pm => (fst pm, PoseStamped.pose (snd pm)))
      (publications (emitted (serve_updates this updates) w))
  = map (fun pm => (fst pm, PoseStamped.pose (snd pm)))
        (publications (emitted (serve_updates this updates) w')).
Proof.
  revert w w'. induction updates as [|info rest IH]; intros w w'.
  - unfold emitted. cbn. now rewrite !skipn_all.
  - rewrite !serve_updates_emitted_cons, !publications_app, !map_app.
    rewrite (IH (snd (position_callback this info w))
                (snd (position_callback this info w'))).
    f_equal. do 2 one_run. reflexivity.
Qed.

End HandlerMore.

Section SequenceMore.

Context {QO : tf2.QuaternionOps} {TM : TimeManagerOps}.

(** X12: over a whole sequence of updates, the stamps of the published
    poses and of the broadcast transforms are the time manager's answers,
    each one used twice and in order: every update's messages carry the
    stamp resolved for that update and no other. *)
Theorem serve_updates_stamps (this : TrackerHandler)
        (updates : list vrpn_TRACKERCB) (w : World) :
  let evs := emitted (serve_updates this updates) w in
  map (fun pm => std_msgs.Header.stamp (PoseStamped.header (snd pm)))
      (publications evs)
  = flat_map (fun r => [snd r; snd r]) (resolutions evs)
  /\ map (fun tf => std_msgs.Header.stamp (TransformStamped.header tf))
         (broadcasts evs)
     = flat_map (fun r => [snd r; snd r]) (resolutions evs).
Proof.
  cbv zeta. revert w. induction updates as [|info rest IH]; intro w.
  - unfold emitted. cbn. rewrite skipn_all. split; reflexivity.
  - destruct (IH (snd (position_callback this info w))) as [Hp Hb].
    rewrite serve_updates_emitted_cons.
    rewrite publications_app, broadcasts_app, resolutions_app.
    rewrite !map_app, flat_map_app, Hp, Hb.
    unfold emitted at 1 3 5 7. rewrite position_callback_run.
    cbn [snd trace]. rewrite skipn_length_app.
    split; reflexivity.
Qed.

(** X13: over a whole sequence of updates there is one transform per
    published pose, in the same order, and each carries the translation,
    rotation, stamp and parent frame of its pose. *)
Theorem serve_updates_transforms_copy_poses (this : TrackerHandler)
        (updates : list vrpn_TRACKERCB) (w : World) :
  let evs := emitted (serve_updates this updates) w in
  Forall2 copied_from (map snd (publications evs)) (broadcasts evs).
Proof.
  cbv zeta. revert w. induction updates as [|info rest IH]; intro w.
  - unfold emitted. cbn. rewrite skipn_all. constructor.
  - rewrite serve_updates_emitted_cons.
    rewrite publications_app, broadcasts_app, map_app.
    apply Forall2_app; [|apply IH].
    unfold emitted. rewrite position_callback_run.
    cbn [snd trace]. rewrite skipn_length_app. cbn.
    repeat constructor.
Qed.

End SequenceMore.

(* ================================================================== *)
(** * The further properties at concrete inputs *)

Section MoreRuns.

Import Reference.

Local Open Scope string_scope.

Lemma sanitize_name_append_witness :
  begins_with_underscore "/1" = false
  /\ sanitize_name ("My Track" ++ "/1")
     = sanitize_name "My Track" ++ sanitize_name "/1".
Proof.
  split; [reflexivity|].
  apply (sanitize_name_append "My Track" "/1"). reflexivity.
Defined.

Lemma sanitize_name_fixed_point_witness :
  string_forallb topic_safe "My_Track/1" = true
  /\ begins_with_underscore "My_Track/1" = false
  /\ sanitize_name "My_Track/1" = "My_Track/1".
Proof.
  split; [reflexivity|]. split; [reflexivity|].
  apply (sanitize_name_fixed_point "My_Track/1"); reflexivity.
Defined.

(** The update at (1, 2, 3) reported for sensor 0 and for sensor 9. *)
Lemma callback_ignores_sensor_witness :
  msg_time update_123
  = msg_time (tracker_update (mk_timeval 1700000000 250000) 9
                             1 2 3 0 0 0 1)
  /\ same_numbers update_123
       (tracker_update (mk_timeval 1700000000 250000) 9 1 2 3 0 0 0 1)
  /\ @position_callback quaternion_ops offset_time_manager
       handler update_123 busy_world
     = @position_callback quaternion_ops offset_time_manager
         handler
         (tracker_update (mk_timeval 1700000000 250000) 9 1 2 3 0 0 0 1)
         busy_world.
Proof.
  split; [reflexivity|].
  split; [unfold same_numbers; repeat split; reflexivity|].
  apply (@callback_ignores_sensor quaternion_ops offset_time_manager
           handler update_123
           (tracker_update (mk_timeval 1700000000 250000) 9 1 2 3 0 0 0 1)
           busy_world).
  - reflexivity.
  - unfold same_numbers. repeat split; reflexivity.
Defined.

End MoreRuns.
